(** * pgdb/databases.go: database (PostgreSQL schema) lifecycle

    A shallow embedding of [internal/handlers/pg/pgdb/databases.go]:
    [Databases], [CreateDatabase], [CreateDatabaseIfNotExists] and
    [DropDatabase], over an abstract PostgreSQL session.  Every statement the
    functions send through the querier is recorded in a trace, so that "which
    SQL was issued" is a property of the model. *)

From Stdlib Require Import String Ascii List Bool Arith Lia.
From Stdlib Require Import Sorted RelationClasses OrderedTypeEx.
Import ListNotations.
Open Scope string_scope.

(** ** The pieces of Go's [strings] package the file uses *)

Module strings.

(** [strings.HasPrefix(s, prefix)]. *)
Definition HasPrefix (s prefix : string) : bool := String.prefix prefix s.

(** [strings.ReplaceAll(s, old, new)] for a one-byte [old], the only form
    the identifier quoting needs. *)
Fixpoint ReplaceAll (s : string) (old : ascii) (new : string) : string :=
  match s with
  | EmptyString => EmptyString
  | String c rest =>
      if Ascii.eqb c old then new ++ ReplaceAll rest old new
      else String c (ReplaceAll rest old new)
  end.

(** [strings.Join(parts, sep)]. *)
Definition Join (parts : list string) (sep : string) : string :=
  String.concat sep parts.

End strings.

(** ** Errors

    Go's [error] values as far as the file looks at them: the three sentinel
    errors of the package, a [pgconn.PgError] (of which only [Code] is read),
    any other error without an [Unwrap] method, a foreign wrapper (an error
    whose [Unwrap] returns the cause, such as [fmt.Errorf] with [%w]) and the
    wrapper built by [lazyerrors.Error]. *)

Inductive error : Type :=
| ErrAlreadyExist
| ErrInvalidDatabaseName
| ErrSchemaNotExist
| PgError (Code : string) (Message : string)
| Opaque (msg : string)
| Wrapper (msg : string) (cause : error)
| LazyError (cause : error).

Module pgerrcode.
Definition DuplicateSchema : string := "42P06".
Definition UniqueViolation : string := "23505".
Definition DuplicateObject : string := "42710".
Definition InvalidSchemaName : string := "3F000".
End pgerrcode.

Module lazyerrors.
(** [lazyerrors.Error(err)]: wraps [err], which stays reachable through
    [Unwrap]. *)
Definition Error (err : error) : error := LazyError err.
End lazyerrors.

Module errors.

(** [Unwrap]: the next error of the chain, if any. *)
Definition Unwrap (err : error) : option error :=
  match err with
  | Wrapper _ cause => Some cause
  | LazyError cause => Some cause
  | _ => None
  end.

(** [errors.As(err, &pgErr)] with [pgErr] a pointer to [pgconn.PgError]: the
    first [PgError] of the chain; [Some (Code, Message)] when one is found. *)
Fixpoint As (err : error) : option (string * string) :=
  match err with
  | PgError code msg => Some (code, msg)
  | Wrapper _ cause => As cause
  | LazyError cause => As cause
  | _ => None
  end.

(** [errors.Is(err, ErrAlreadyExist)]: some error of the chain is the
    sentinel. *)
Fixpoint Is_ErrAlreadyExist (err : error) : bool :=
  match err with
  | ErrAlreadyExist => true
  | Wrapper _ cause => Is_ErrAlreadyExist cause
  | LazyError cause => Is_ErrAlreadyExist cause
  | _ => false
  end.

(** The type assertion of [err] to a pointer to [pgconn.PgError]: it looks at
    [err] itself and never unwraps. *)
Definition assert_PgError (err : error) : option (string * string) :=
  match err with
  | PgError code msg => Some (code, msg)
  | _ => None
  end.

End errors.

(** ** Name validation *)

Definition reservedPrefix : string := "_ferretdb_".

Module validateDatabaseNameRe.

Definition between (lo hi : nat) (c : ascii) : bool :=
  (lo <=? nat_of_ascii c)%nat && (nat_of_ascii c <=? hi)%nat.

Definition lower (c : ascii) : bool := between 97 122 c.
Definition digit (c : ascii) : bool := between 48 57 c.
Definition underscore (c : ascii) : bool := Ascii.eqb c "_"%char.
Definition hyphen (c : ascii) : bool := Ascii.eqb c "-"%char.

(** The class [[a-z_-]]. *)
Definition first_class (c : ascii) : bool :=
  lower c || underscore c || hyphen c.

(** The class [[a-z0-9_-]]. *)
Definition rest_class (c : ascii) : bool :=
  lower c || digit c || underscore c || hyphen c.

Fixpoint all_rest (s : string) : bool :=
  match s with
  | EmptyString => true
  | String c r => rest_class c && all_rest r
  end.

(** Modelled from the spec: the declaration of [validateDatabaseNameRe] is
    not in [databases.go]; the spec gives the pattern
    [[a-z_-][a-z0-9_-]{0,62}], which a database name has to match as a
    whole. *)
Definition MatchString (db : string) : bool :=
  match db with
  | EmptyString => false
  | String c r => first_class c && all_rest r && (String.length r <=? 62)%nat
  end.

End validateDatabaseNameRe.

(** A name that passes the guard opening [CreateDatabase] and
    [CreateDatabaseIfNotExists]. *)
Definition validName (db : string) : Prop :=
  validateDatabaseNameRe.MatchString db = true
  /\ strings.HasPrefix db reservedPrefix = false.

(** ** Identifier quoting *)

Module pgx.

Definition dquote : ascii := ascii_of_nat 34.
Definition quoteStr : string := String dquote EmptyString.

(** Modelled from the spec: [pgx.Identifier.Sanitize] belongs to the pgx
    library the file imports; the spec describes it as identifier quoting.
    Each part loses its NUL bytes, has its double quotes doubled and is put
    between double quotes; the parts are joined with a dot. *)
Definition sanitizePart (part : string) : string :=
  let s := strings.ReplaceAll part zero EmptyString in
  quoteStr ++ strings.ReplaceAll s dquote (quoteStr ++ quoteStr) ++ quoteStr.

Definition Sanitize (ident : list string) : string :=
  strings.Join (map sanitizePart ident) ".".

End pgx.

(** ** The PostgreSQL session behind the querier *)

(** What a call leaves in the trace: a statement handed to the querier, or a
    call of [createSettingsTable] for a database. *)
Inductive event : Type :=
| SQL (stmt : string)
| CallCreateSettingsTable (db : string).

(** The result set of [querier.Query]: for each row [rows.Next] delivers, what
    [rows.Scan(&name)] gives, and then the value of [rows.Err()]. *)
Record Rows : Type := {
  scans : list (string + error);
  Err : option error
}.

(** [pgxtype.Querier], over the state [Conn] of the session.  A Go [error]
    result is [None] for [nil]. *)
Class Querier (Conn : Type) : Type := {
  Exec : string -> Conn -> option error * Conn;
  Query : string -> Conn -> (Rows + error) * Conn
}.

(** [createSettingsTable(ctx, querier, db)] is defined in another file of the
    package; it is taken as a parameter: any function of the session that
    returns an error or [nil]. *)
Class SettingsTable (Conn : Type) : Type := {
  createSettingsTable_run : string -> Conn -> option error * Conn
}.

Record World (Conn : Type) : Type := {
  conn : Conn;
  trace : list event
}.

Arguments conn {Conn} _.
Arguments trace {Conn} _.

(** A state monad over the session and the trace. *)
Definition M (Conn A : Type) : Type := World Conn -> A * World Conn.

Definition ret {Conn A : Type} (a : A) : M Conn A := fun w => (a, w).

Definition bind {Conn A B : Type} (m : M Conn A) (k : A -> M Conn B)
  : M Conn B :=
  fun w => let (a, w') := m w in k a w'.

Notation "x <- m ;; k" := (bind m (fun x => k))
  (at level 61, m at next level, right associativity).

Section Pgdb.

Context {Conn : Type} `{Q : Querier Conn} `{T : SettingsTable Conn}.

Definition record (e : event) (c : Conn) (w : World Conn) : World Conn :=
  {| conn := c; trace := (trace w ++ [e])%list |}.

(** [querier.Exec(ctx, sql)]. *)
Definition exec (sql : string) : M Conn (option error) :=
  fun w => let (r, c) := Exec sql (conn w) in (r, record (SQL sql) c w).

(** [querier.Query(ctx, sql)]. *)
Definition query (sql : string) : M Conn (Rows + error) :=
  fun w => let (r, c) := Query sql (conn w) in (r, record (SQL sql) c w).

Definition createSettingsTable (db : string) : M Conn (option error) :=
  fun w =>
    let (r, c) := createSettingsTable_run db (conn w) in
    (r, record (CallCreateSettingsTable db) c w).

(** The loop [for rows.Next()] of [Databases]. *)
Fixpoint scanRows (rows : list (string + error)) (res : list string)
  : list string + error :=
  match rows with
  | [] => inl res
  | inr err :: _ => inr (lazyerrors.Error err)
  | inl name :: rest =>
      if strings.HasPrefix name "pg_" || (name =? "information_schema")
      then scanRows rest res
      else scanRows rest (res ++ [name])%list
  end.

Definition Databases_sql : string :=
  "SELECT schema_name FROM information_schema.schemata ORDER BY schema_name".

Definition Databases : M Conn (list string + error) :=
  r <- query Databases_sql ;;
  match r with
  | inr err => ret (inr (lazyerrors.Error err))
  | inl rows =>
      match scanRows (scans rows) [] with
      | inr err => ret (inr err)
      | inl res =>
          match Err rows with
          | Some err => ret (inr (lazyerrors.Error err))
          | None => ret (inl res)
          end
      end
  end.

(** The tail shared by both create functions: [errors.As] and the [switch]
    on [pgErr.Code]. *)
Definition classifyCreate (err : error) : error :=
  match errors.As err with
  | None => lazyerrors.Error err
  | Some (Code, _) =>
      if Code =? pgerrcode.DuplicateSchema then ErrAlreadyExist
      else if (Code =? pgerrcode.UniqueViolation)
              || (Code =? pgerrcode.DuplicateObject) then ErrAlreadyExist
      else lazyerrors.Error err
  end.

Definition CreateDatabase (db : string) : M Conn (option error) :=
  if negb (validateDatabaseNameRe.MatchString db)
     || strings.HasPrefix db reservedPrefix
  then ret (Some ErrInvalidDatabaseName)
  else
    err <- exec ("CREATE SCHEMA " ++ pgx.Sanitize [db]) ;;
    err <- match err with
           | None => createSettingsTable db
           | Some _ => ret err
           end ;;
    match err with
    | None => ret None
    | Some e => ret (Some (classifyCreate e))
    end.

Definition CreateDatabaseIfNotExists (db : string) : M Conn (option error) :=
  if negb (validateDatabaseNameRe.MatchString db)
     || strings.HasPrefix db reservedPrefix
  then ret (Some ErrInvalidDatabaseName)
  else
    err <- exec ("CREATE SCHEMA IF NOT EXISTS " ++ pgx.Sanitize [db]) ;;
    err <- match err with
           | None => createSettingsTable db
           | Some _ => ret err
           end ;;
    match err with
    | None => ret None
    | Some e =>
        if errors.Is_ErrAlreadyExist e then ret None
        else ret (Some (classifyCreate e))
    end.

Definition DropDatabase (db : string) : M Conn (option error) :=
  err <- exec ("DROP SCHEMA " ++ pgx.Sanitize [db] ++ " CASCADE") ;;
  match err with
  | None => ret None
  | Some e =>
      match errors.assert_PgError e with
      | None => ret (Some (lazyerrors.Error e))
      | Some (Code, _) =>
          if Code =? pgerrcode.InvalidSchemaName then ret (Some ErrSchemaNotExist)
          else ret (Some (lazyerrors.Error e))
      end
  end.

End Pgdb.

(** ** A scripted session

    A session that answers the calls made on it from a script, one answer per
    call, and succeeds once the script is used up.  It stands in for a
    PostgreSQL server when the functions are run on concrete inputs. *)

Module Scripted.

Inductive answer : Type :=
| Done (err : option error)
| Result (rows : Rows).

Definition Conn : Type := list answer.

Definition pop_err (c : Conn) : option error * Conn :=
  match c with
  | Done r :: c' => (r, c')
  | _ :: c' => (None, c')
  | [] => (None, [])
  end.

Definition pop_rows (c : Conn) : (Rows + error) * Conn :=
  match c with
  | Result rows :: c' => (inl rows, c')
  | Done (Some e) :: c' => (inr e, c')
  | _ :: c' => (inl {| scans := []; Err := None |}, c')
  | [] => (inl {| scans := []; Err := None |}, [])
  end.

#[global] Instance querier : Querier Conn :=
  {| Exec := fun _ => pop_err; Query := fun _ => pop_rows |}.

#[global] Instance settings : SettingsTable Conn :=
  {| createSettingsTable_run := fun _ => pop_err |}.

Definition start (script : Conn) : World Conn :=
  {| conn := script; trace := [] |}.

End Scripted.

(** ** How the errors reach the client *)

Inductive CodeName : Type :=
| NamespaceExists
| NamespaceNotFound
| InvalidNamespace.

(** Modelled from the spec: the command handlers that turn the errors of this
    package into MongoDB errors are not in [databases.go]; the spec's error
    mapping reports an existing schema as NamespaceExists (48), a missing one
    as NamespaceNotFound (26) and an invalid name as InvalidNamespace (73). *)
Definition reportedAs (err : error) : option CodeName :=
  match err with
  | ErrAlreadyExist => Some NamespaceExists
  | ErrSchemaNotExist => Some NamespaceNotFound
  | ErrInvalidDatabaseName => Some InvalidNamespace
  | _ => None
  end.

(** ** The statements the functions send *)

Definition createSchemaSQL (db : string) : string :=
  "CREATE SCHEMA " ++ pgx.Sanitize [db].

Definition createSchemaIfNotExistsSQL (db : string) : string :=
  "CREATE SCHEMA IF NOT EXISTS " ++ pgx.Sanitize [db].

Definition dropSchemaSQL (db : string) : string :=
  "DROP SCHEMA " ++ pgx.Sanitize [db] ++ " CASCADE".

(** The error the two steps of a create report to the code that follows them:
    the error of the schema statement [sql], or else the error of
    [createSettingsTable]; [None] when both succeed. *)
Definition firstFailure {Conn : Type} `{Querier Conn} `{SettingsTable Conn}
  (sql db : string) (c : Conn) : option error :=
  match Exec sql c with
  | (Some e, _) => Some e
  | (None, c') => fst (createSettingsTable_run db c')
  end.

(** The events a run added to the trace. *)
Definition issued {Conn : Type} (w w' : World Conn) (evs : list event) : Prop :=
  trace w' = (trace w ++ evs)%list.

Section Worlds.

Context {Conn : Type} `{Q : Querier Conn} `{T : SettingsTable Conn}.

(** The world once the statement [sql] has been executed, and once
    [createSettingsTable] has run after it. *)
Definition afterSchema (sql : string) (w : World Conn) : World Conn :=
  record (SQL sql) (snd (Exec sql (conn w))) w.

Definition afterSettings (sql db : string) (w : World Conn) : World Conn :=
  let w1 := afterSchema sql w in
  record (CallCreateSettingsTable db)
         (snd (createSettingsTable_run db (conn w1))) w1.

(** What [CreateDatabaseIfNotExists] returns for an error [e] of its two
    steps: the [errors.Is] test, then the shared classification. *)
Definition swallow (e : error) : option error :=
  if errors.Is_ErrAlreadyExist e then None else Some (classifyCreate e).

(** The events of a create, spelled out: none for a rejected name, the schema
    statement alone when it fails, the statement and the call of
    [createSettingsTable] when it succeeds. *)
Definition createEvents (sql db : string) (w : World Conn) : list event :=
  if negb (validateDatabaseNameRe.MatchString db)
     || strings.HasPrefix db reservedPrefix
  then []
  else match fst (Exec sql (conn w)) with
       | Some _ => [SQL sql]
       | None => [SQL sql; CallCreateSettingsTable db]
       end.

End Worlds.

(** The four kinds of result the create functions have. *)
Inductive outcome : Type :=
| Succeeded
| InvalidName
| AlreadyExists
| Wrapped (cause : error).

(** The kind of a returned error value; [None] for a value of no kind. *)
Definition outcomeOf (r : option error) : option outcome :=
  match r with
  | None => Some Succeeded
  | Some ErrInvalidDatabaseName => Some InvalidName
  | Some ErrAlreadyExist => Some AlreadyExists
  | Some (LazyError e) => Some (Wrapped e)
  | Some _ => None
  end.

(** The names the loop of [Databases] keeps. *)
Definition listed (name : string) : bool :=
  negb (strings.HasPrefix name "pg_" || (name =? "information_schema")).

(** The names of the rows whose [Scan] succeeded. *)
Fixpoint scanned (rows : list (string + error)) : list string :=
  match rows with
  | [] => []
  | inl name :: rest => name :: scanned rest
  | inr _ :: rest => scanned rest
  end.

(** ** Unfolding lemmas *)

Section Equations.

Context {Conn : Type} `{Q : Querier Conn} `{T : SettingsTable Conn}.

Lemma guard_valid (db : string) :
  validName db ->
  negb (validateDatabaseNameRe.MatchString db)
  || strings.HasPrefix db reservedPrefix = false.
Proof. intros [Hm Hp]. rewrite Hm, Hp. reflexivity. Qed.

Lemma guard_invalid (db : string) :
  validateDatabaseNameRe.MatchString db = false
  \/ strings.HasPrefix db reservedPrefix = true ->
  negb (validateDatabaseNameRe.MatchString db)
  || strings.HasPrefix db reservedPrefix = true.
Proof.
  intros [Hm | Hp].
  - rewrite Hm. reflexivity.
  - rewrite Hp. apply orb_true_r.
Qed.

Lemma guard_dec (db : string) :
  validName db
  \/ (validateDatabaseNameRe.MatchString db = false
      \/ strings.HasPrefix db reservedPrefix = true).
Proof.
  unfold validName.
  destruct (validateDatabaseNameRe.MatchString db);
    destruct (strings.HasPrefix db reservedPrefix); auto.
Qed.

Lemma CreateDatabase_invalid (db : string) (w : World Conn) :
  validateDatabaseNameRe.MatchString db = false
  \/ strings.HasPrefix db reservedPrefix = true ->
  CreateDatabase db w = (Some ErrInvalidDatabaseName, w).
Proof.
  intros H. unfold CreateDatabase. rewrite (guard_invalid _ H). reflexivity.
Qed.

Lemma CreateDatabaseIfNotExists_invalid (db : string) (w : World Conn) :
  validateDatabaseNameRe.MatchString db = false
  \/ strings.HasPrefix db reservedPrefix = true ->
  CreateDatabaseIfNotExists db w = (Some ErrInvalidDatabaseName, w).
Proof.
  intros H. unfold CreateDatabaseIfNotExists.
  rewrite (guard_invalid _ H). reflexivity.
Qed.

Lemma CreateDatabase_valid (db : string) (w : World Conn) :
  validName db ->
  CreateDatabase db w =
    match fst (Exec (createSchemaSQL db) (conn w)) with
    | Some e => (Some (classifyCreate e), afterSchema (createSchemaSQL db) w)
    | None =>
        (option_map classifyCreate (firstFailure (createSchemaSQL db) db (conn w)),
         afterSettings (createSchemaSQL db) db w)
    end.
Proof.
  intros V. unfold CreateDatabase. rewrite (guard_valid db V).
  unfold bind, exec, createSettingsTable, afterSettings, afterSchema,
    firstFailure, ret.
  fold (createSchemaSQL db).
  destruct (Exec (createSchemaSQL db) (conn w)) as [[e|] c]; cbn.
  - reflexivity.
  - destruct (createSettingsTable_run db c) as [[e|] c']; reflexivity.
Qed.

Lemma CreateDatabaseIfNotExists_valid (db : string) (w : World Conn) :
  validName db ->
  CreateDatabaseIfNotExists db w =
    match fst (Exec (createSchemaIfNotExistsSQL db) (conn w)) with
    | Some e => (swallow e, afterSchema (createSchemaIfNotExistsSQL db) w)
    | None =>
        (match firstFailure (createSchemaIfNotExistsSQL db) db (conn w) with
         | Some e => swallow e
         | None => None
         end,
         afterSettings (createSchemaIfNotExistsSQL db) db w)
    end.
Proof.
  intros V. unfold CreateDatabaseIfNotExists. rewrite (guard_valid db V).
  unfold bind, exec, createSettingsTable, afterSettings, afterSchema,
    firstFailure, ret, swallow.
  fold (createSchemaIfNotExistsSQL db).
  destruct (Exec (createSchemaIfNotExistsSQL db) (conn w)) as [[e|] c]; cbn.
  - destruct (errors.Is_ErrAlreadyExist e); reflexivity.
  - destruct (createSettingsTable_run db c) as [[e|] c']; cbn.
    + destruct (errors.Is_ErrAlreadyExist e); reflexivity.
    + reflexivity.
Qed.

Lemma firstFailure_schema (sql db : string) (c : Conn) (e : error) :
  fst (Exec sql c) = Some e -> firstFailure sql db c = Some e.
Proof.
  unfold firstFailure. destruct (Exec sql c) as [[e'|] c']; cbn; congruence.
Qed.

Lemma DropDatabase_trace (db : string) (w : World Conn) :
  snd (DropDatabase db w) = afterSchema (dropSchemaSQL db) w.
Proof.
  unfold DropDatabase, bind, exec, afterSchema, ret.
  fold (dropSchemaSQL db).
  destruct (Exec (dropSchemaSQL db) (conn w)) as [[e|] c]; cbn.
  - destruct (errors.assert_PgError e) as [[code msg]|]; [|reflexivity].
    destruct (code =? pgerrcode.InvalidSchemaName); reflexivity.
  - reflexivity.
Qed.

End Equations.

(** ** Name validation comes before any SQL *)

Section Validation.

Context {Conn : Type} `{Q : Querier Conn} `{T : SettingsTable Conn}.

(** C2: for every database name that does not match the validation pattern or
    that begins with the reserved prefix [_ferretdb_], [CreateDatabase] and
    [CreateDatabaseIfNotExists] return [ErrInvalidDatabaseName] (reported as
    InvalidNamespace); the call adds nothing to the trace of issued statements
    and leaves the session as it was, so no schema is created. *)
Theorem invalid_name_rejected_without_sql (db : string) (w : World Conn) :
  validateDatabaseNameRe.MatchString db = false
  \/ strings.HasPrefix db reservedPrefix = true ->
  forall (r : option error) (w' : World Conn),
    CreateDatabase db w = (r, w') \/ CreateDatabaseIfNotExists db w = (r, w') ->
    r = Some ErrInvalidDatabaseName
    /\ match r with Some e => reportedAs e | None => None end
       = Some InvalidNamespace
    /\ issued w w' []
    /\ conn w' = conn w.
Proof.
  intros Hbad r w' Hrun.
  assert (E : (r, w') = (Some ErrInvalidDatabaseName, w)).
  { destruct Hrun as [Hrun | Hrun]; rewrite <- Hrun.
    - apply CreateDatabase_invalid; assumption.
    - apply CreateDatabaseIfNotExists_invalid; assumption. }
  injection E as -> ->.
  unfold issued. rewrite app_nil_r. repeat split; reflexivity.
Qed.

(** C3, as the code has it: [DropDatabase] does not validate the name.  For
    every database name, whether it matches the pattern or not, the call sends
    exactly one statement, [DROP SCHEMA] of the quoted name with [CASCADE],
    and the session is the one that statement leaves. *)
Theorem DropDatabase_always_issues_drop (db : string) (w : World Conn) :
  issued w (snd (DropDatabase db w))
         [SQL ("DROP SCHEMA " ++ pgx.Sanitize [db] ++ " CASCADE")]
  /\ conn (snd (DropDatabase db w))
     = snd (Exec ("DROP SCHEMA " ++ pgx.Sanitize [db] ++ " CASCADE") (conn w)).
Proof.
  rewrite DropDatabase_trace. unfold issued, afterSchema, record, dropSchemaSQL.
  cbn. split; reflexivity.
Qed.

End Validation.

(** C2 at the name of the spec's scenario, [_ferretdb_x]. *)
Lemma invalid_name_rejected_without_sql_witness :
  (validateDatabaseNameRe.MatchString "_ferretdb_x" = false
   \/ strings.HasPrefix "_ferretdb_x" reservedPrefix = true)
  /\ (CreateDatabase "_ferretdb_x" (Scripted.start []) =
        (Some ErrInvalidDatabaseName, Scripted.start [])
      \/ CreateDatabaseIfNotExists "_ferretdb_x" (Scripted.start []) =
           (Some ErrInvalidDatabaseName, Scripted.start []))
  /\ (Some ErrInvalidDatabaseName = Some ErrInvalidDatabaseName
      /\ reportedAs ErrInvalidDatabaseName = Some InvalidNamespace
      /\ issued (Scripted.start []) (Scripted.start []) []
      /\ conn (Scripted.start []) = conn (Scripted.start [])).
Proof.
  split; [right; reflexivity|].
  split; [left; reflexivity|].
  apply (@invalid_name_rejected_without_sql Scripted.Conn _ _
           "_ferretdb_x" (Scripted.start [])
           (or_intror eq_refl) (Some ErrInvalidDatabaseName) (Scripted.start [])).
  left; reflexivity.
Defined.

(** C3 fails on the code: the name [A] violates the pattern, and
    [DropDatabase] still sends a [DROP SCHEMA] for it and returns [nil] when
    the statement succeeds. *)
Lemma DropDatabase_invalid_name_reaches_backend :
  validateDatabaseNameRe.MatchString "A" = false
  /\ trace (snd (DropDatabase "A" (Scripted.start [])))
     = [SQL ("DROP SCHEMA " ++ pgx.quoteStr ++ "A" ++ pgx.quoteStr ++ " CASCADE")]
  /\ trace (snd (DropDatabase "A" (Scripted.start [])))
     <> trace (Scripted.start [])
  /\ fst (DropDatabase "A" (Scripted.start [])) = None.
Proof.
  repeat split; try reflexivity.
  cbn. discriminate.
Qed.

(** ** Facts about error chains and the classification *)

Lemma As_excludes_Is (e : error) (p : string * string) :
  errors.As e = Some p -> errors.Is_ErrAlreadyExist e = false.
Proof.
  induction e; cbn; intros H; try discriminate; auto.
Qed.

Lemma classifyCreate_not_pg (e : error) :
  errors.As e = None -> classifyCreate e = lazyerrors.Error e.
Proof. intros H. unfold classifyCreate. rewrite H. reflexivity. Qed.

Lemma classifyCreate_duplicate (e : error) (code msg : string) :
  errors.As e = Some (code, msg) ->
  code = "42P06" \/ code = "23505" \/ code = "42710" ->
  classifyCreate e = ErrAlreadyExist.
Proof.
  intros H D. unfold classifyCreate. rewrite H.
  destruct D as [-> | [-> | ->]]; reflexivity.
Qed.

Lemma classifyCreate_other (e : error) (code msg : string) :
  errors.As e = Some (code, msg) ->
  code <> "42P06" -> code <> "23505" -> code <> "42710" ->
  classifyCreate e = lazyerrors.Error e.
Proof.
  intros H N1 N2 N3. unfold classifyCreate. rewrite H.
  apply String.eqb_neq in N1, N2, N3.
  unfold pgerrcode.DuplicateSchema, pgerrcode.UniqueViolation,
    pgerrcode.DuplicateObject.
  rewrite N1, N2, N3. reflexivity.
Qed.

(** [classifyCreate] has two kinds of results only. *)
Lemma classifyCreate_cases (e : error) :
  classifyCreate e = ErrAlreadyExist \/ classifyCreate e = lazyerrors.Error e.
Proof.
  unfold classifyCreate.
  destruct (errors.As e) as [[code msg]|]; [|right; reflexivity].
  destruct (code =? pgerrcode.DuplicateSchema); [left; reflexivity|].
  destruct ((code =? pgerrcode.UniqueViolation)
            || (code =? pgerrcode.DuplicateObject));
    [left | right]; reflexivity.
Qed.

Section Results.

Context {Conn : Type} `{Q : Querier Conn} `{T : SettingsTable Conn}.

Lemma CreateDatabase_result (db : string) (w : World Conn) :
  validName db ->
  fst (CreateDatabase db w)
  = option_map classifyCreate (firstFailure (createSchemaSQL db) db (conn w)).
Proof.
  intros V. rewrite (CreateDatabase_valid db w V).
  destruct (fst (Exec (createSchemaSQL db) (conn w))) as [e|] eqn:E.
  - rewrite (firstFailure_schema _ db _ e E). reflexivity.
  - reflexivity.
Qed.

Lemma CreateDatabaseIfNotExists_result (db : string) (w : World Conn) :
  validName db ->
  fst (CreateDatabaseIfNotExists db w)
  = match firstFailure (createSchemaIfNotExistsSQL db) db (conn w) with
    | Some e => swallow e
    | None => None
    end.
Proof.
  intros V. rewrite (CreateDatabaseIfNotExists_valid db w V).
  destruct (fst (Exec (createSchemaIfNotExistsSQL db) (conn w))) as [e|] eqn:E.
  - rewrite (firstFailure_schema _ db _ e E). reflexivity.
  - reflexivity.
Qed.

Lemma afterSettings_trace (sql db : string) (w : World Conn) :
  trace (afterSettings sql db w)
  = (trace w ++ [SQL sql; CallCreateSettingsTable db])%list.
Proof.
  unfold afterSettings, afterSchema, record. cbn.
  rewrite <- app_assoc. reflexivity.
Qed.

Lemma CreateDatabase_events (db : string) (w : World Conn) :
  issued w (snd (CreateDatabase db w)) (createEvents (createSchemaSQL db) db w).
Proof.
  unfold issued, createEvents.
  destruct (guard_dec db) as [V | B].
  - rewrite (CreateDatabase_valid db w V), (guard_valid db V).
    destruct (fst (Exec (createSchemaSQL db) (conn w))); cbn.
    + reflexivity.
    + apply afterSettings_trace.
  - rewrite (CreateDatabase_invalid db w B), (guard_invalid _ B). cbn.
    symmetry. apply app_nil_r.
Qed.

Lemma CreateDatabaseIfNotExists_events (db : string) (w : World Conn) :
  issued w (snd (CreateDatabaseIfNotExists db w))
         (createEvents (createSchemaIfNotExistsSQL db) db w).
Proof.
  unfold issued, createEvents.
  destruct (guard_dec db) as [V | B].
  - rewrite (CreateDatabaseIfNotExists_valid db w V), (guard_valid db V).
    destruct (fst (Exec (createSchemaIfNotExistsSQL db) (conn w))); cbn.
    + reflexivity.
    + apply afterSettings_trace.
  - rewrite (CreateDatabaseIfNotExists_invalid db w B), (guard_invalid _ B). cbn.
    symmetry. apply app_nil_r.
Qed.

Lemma createEvents_succeeded (sql db : string) (w : World Conn) :
  validName db ->
  fst (Exec sql (conn w)) = None ->
  createEvents sql db w = [SQL sql; CallCreateSettingsTable db].
Proof.
  intros V HX. unfold createEvents. rewrite (guard_valid db V), HX.
  reflexivity.
Qed.

Lemma createEvents_failed (sql db : string) (w : World Conn) (e : error) :
  validName db ->
  fst (Exec sql (conn w)) = Some e ->
  createEvents sql db w = [SQL sql].
Proof.
  intros V HX. unfold createEvents. rewrite (guard_valid db V), HX.
  reflexivity.
Qed.

Lemma createEvents_call (sql db : string) (w : World Conn) :
  In (CallCreateSettingsTable db) (createEvents sql db w) <->
  validName db /\ fst (Exec sql (conn w)) = None.
Proof.
  unfold createEvents. destruct (guard_dec db) as [V | B].
  - rewrite (guard_valid db V).
    destruct (fst (Exec sql (conn w))) as [e|]; cbn.
    + split.
      * intros [H | []]. discriminate H.
      * intros [_ H]. discriminate H.
    + split; auto.
  - rewrite (guard_invalid db B). cbn. split; [intros []|].
    intros [[Hm Hp] _]. destruct B as [B | B]; congruence.
Qed.

Lemma issued_unique (w w' : World Conn) (evs evs' : list event) :
  issued w w' evs -> issued w w' evs' -> evs = evs'.
Proof.
  unfold issued. intros H H'. rewrite H in H'.
  apply (app_inv_head _ _ _ H').
Qed.

Lemma CreateDatabase_conn (db : string) (w : World Conn) :
  validName db ->
  conn (snd (CreateDatabase db w))
  = match fst (Exec (createSchemaSQL db) (conn w)) with
    | Some _ => snd (Exec (createSchemaSQL db) (conn w))
    | None =>
        snd (createSettingsTable_run db
               (snd (Exec (createSchemaSQL db) (conn w))))
    end.
Proof.
  intros V. rewrite (CreateDatabase_valid db w V).
  destruct (fst (Exec (createSchemaSQL db) (conn w))); reflexivity.
Qed.

Lemma CreateDatabaseIfNotExists_conn (db : string) (w : World Conn) :
  validName db ->
  conn (snd (CreateDatabaseIfNotExists db w))
  = match fst (Exec (createSchemaIfNotExistsSQL db) (conn w)) with
    | Some _ => snd (Exec (createSchemaIfNotExistsSQL db) (conn w))
    | None =>
        snd (createSettingsTable_run db
               (snd (Exec (createSchemaIfNotExistsSQL db) (conn w))))
    end.
Proof.
  intros V. rewrite (CreateDatabaseIfNotExists_valid db w V).
  destruct (fst (Exec (createSchemaIfNotExistsSQL db) (conn w))); reflexivity.
Qed.

End Results.

(** ** Creating a database *)

Section Create.

Context {Conn : Type} `{Q : Querier Conn} `{T : SettingsTable Conn}.

(** C4: for every valid database name, [CreateDatabase] returns [nil] when
    the schema statement and the settings-table creation both succeed; when
    the step that fails reports a PostgreSQL error with SQLSTATE 42P06, 23505
    or 42710 it returns [ErrAlreadyExist] (reported as NamespaceExists); for a
    PostgreSQL error with any other code it returns that error wrapped by
    [lazyerrors.Error]. *)
Theorem CreateDatabase_error_mapping (db : string) (w : World Conn) :
  validName db ->
  (firstFailure (createSchemaSQL db) db (conn w) = None ->
   fst (CreateDatabase db w) = None)
  /\ (forall (e : error) (code msg : string),
        firstFailure (createSchemaSQL db) db (conn w) = Some e ->
        errors.As e = Some (code, msg) ->
        (code = "42P06" \/ code = "23505" \/ code = "42710" ->
         fst (CreateDatabase db w) = Some ErrAlreadyExist
         /\ reportedAs ErrAlreadyExist = Some NamespaceExists)
        /\ (code <> "42P06" -> code <> "23505" -> code <> "42710" ->
            fst (CreateDatabase db w) = Some (lazyerrors.Error e))).
Proof.
  intros V. rewrite (CreateDatabase_result db w V). split.
  - intros ->. reflexivity.
  - intros e code msg -> HAs. cbn. split.
    + intros D. rewrite (classifyCreate_duplicate e code msg HAs D).
      split; reflexivity.
    + intros N1 N2 N3.
      rewrite (classifyCreate_other e code msg HAs N1 N2 N3). reflexivity.
Qed.

(** C9: in [CreateDatabase] and in [CreateDatabaseIfNotExists] the
    settings-table creation is attempted if and only if the schema statement
    was sent and succeeded.  For a name that passes the guard: when the
    statement succeeds the call sends the statement and then calls
    [createSettingsTable], in this order and nothing else; when the statement
    fails it is the only event of the call and the session is the one the
    statement left.  For a name the guard rejects neither happens. *)
Theorem settings_table_iff_schema_created (db : string) (w : World Conn) :
  (validName db ->
   (fst (Exec (createSchemaSQL db) (conn w)) = None ->
    issued w (snd (CreateDatabase db w))
      [SQL (createSchemaSQL db); CallCreateSettingsTable db]
    /\ conn (snd (CreateDatabase db w))
       = snd (createSettingsTable_run db
                (snd (Exec (createSchemaSQL db) (conn w)))))
   /\ (forall e : error,
         fst (Exec (createSchemaSQL db) (conn w)) = Some e ->
         issued w (snd (CreateDatabase db w)) [SQL (createSchemaSQL db)]
         /\ conn (snd (CreateDatabase db w))
            = snd (Exec (createSchemaSQL db) (conn w)))
   /\ (fst (Exec (createSchemaIfNotExistsSQL db) (conn w)) = None ->
       issued w (snd (CreateDatabaseIfNotExists db w))
         [SQL (createSchemaIfNotExistsSQL db); CallCreateSettingsTable db]
       /\ conn (snd (CreateDatabaseIfNotExists db w))
          = snd (createSettingsTable_run db
                   (snd (Exec (createSchemaIfNotExistsSQL db) (conn w)))))
   /\ (forall e : error,
         fst (Exec (createSchemaIfNotExistsSQL db) (conn w)) = Some e ->
         issued w (snd (CreateDatabaseIfNotExists db w))
           [SQL (createSchemaIfNotExistsSQL db)]
         /\ conn (snd (CreateDatabaseIfNotExists db w))
            = snd (Exec (createSchemaIfNotExistsSQL db) (conn w))))
  /\ ((exists evs : list event,
          issued w (snd (CreateDatabase db w)) evs
          /\ In (CallCreateSettingsTable db) evs)
      <-> validName db /\ fst (Exec (createSchemaSQL db) (conn w)) = None)
  /\ ((exists evs : list event,
          issued w (snd (CreateDatabaseIfNotExists db w)) evs
          /\ In (CallCreateSettingsTable db) evs)
      <-> validName db
          /\ fst (Exec (createSchemaIfNotExistsSQL db) (conn w)) = None).
Proof.
  pose proof (CreateDatabase_events db w) as HC.
  pose proof (CreateDatabaseIfNotExists_events db w) as HI.
  split; [|split].
  - intros V. split; [|split; [|split]].
    + intros HX. split.
      * rewrite <- (createEvents_succeeded _ db w V HX). exact HC.
      * rewrite (CreateDatabase_conn db w V), HX. reflexivity.
    + intros e HX. split.
      * rewrite <- (createEvents_failed _ db w e V HX). exact HC.
      * rewrite (CreateDatabase_conn db w V), HX. reflexivity.
    + intros HX. split.
      * rewrite <- (createEvents_succeeded _ db w V HX). exact HI.
      * rewrite (CreateDatabaseIfNotExists_conn db w V), HX. reflexivity.
    + intros e HX. split.
      * rewrite <- (createEvents_failed _ db w e V HX). exact HI.
      * rewrite (CreateDatabaseIfNotExists_conn db w V), HX. reflexivity.
  - rewrite <- createEvents_call. split.
    + intros [evs [Hi HIn]]. rewrite (issued_unique _ _ _ _ HC Hi). exact HIn.
    + intros HIn. eexists. split; [exact HC | exact HIn].
  - rewrite <- createEvents_call. split.
    + intros [evs [Hi HIn]]. rewrite (issued_unique _ _ _ _ HI Hi). exact HIn.
    + intros HIn. eexists. split; [exact HI | exact HIn].
Qed.

(** C10, as the code has it: an error of the two steps that is not a
    PostgreSQL error is returned wrapped by [CreateDatabase]; by
    [CreateDatabaseIfNotExists] it is returned wrapped unless it is, or wraps,
    [ErrAlreadyExist], in which case the call returns [nil].  Every call of
    either function has exactly one kind of result: [nil],
    [ErrInvalidDatabaseName], [ErrAlreadyExist], or the error of the failing
    step wrapped by [lazyerrors.Error], whose [Unwrap] is that error. *)
Theorem create_results_classified (db : string) (w : World Conn) :
  (validName db ->
   forall e : error,
     errors.As e = None ->
     (firstFailure (createSchemaSQL db) db (conn w) = Some e ->
      fst (CreateDatabase db w) = Some (lazyerrors.Error e))
     /\ (firstFailure (createSchemaIfNotExistsSQL db) db (conn w) = Some e ->
         fst (CreateDatabaseIfNotExists db w) =
           if errors.Is_ErrAlreadyExist e then None
           else Some (lazyerrors.Error e)))
  /\ (exists k : outcome,
         outcomeOf (fst (CreateDatabase db w)) = Some k
         /\ forall e : error,
             k = Wrapped e ->
             firstFailure (createSchemaSQL db) db (conn w) = Some e
             /\ errors.Unwrap (lazyerrors.Error e) = Some e)
  /\ (exists k : outcome,
         outcomeOf (fst (CreateDatabaseIfNotExists db w)) = Some k
         /\ forall e : error,
             k = Wrapped e ->
             firstFailure (createSchemaIfNotExistsSQL db) db (conn w) = Some e
             /\ errors.Unwrap (lazyerrors.Error e) = Some e).
Proof.
  split; [|split].
  - intros V e HAs. split; intros HF.
    + rewrite (CreateDatabase_result db w V), HF. cbn.
      rewrite (classifyCreate_not_pg e HAs). reflexivity.
    + rewrite (CreateDatabaseIfNotExists_result db w V), HF. unfold swallow.
      rewrite (classifyCreate_not_pg e HAs). reflexivity.
  - destruct (guard_dec db) as [V | B].
    + rewrite (CreateDatabase_result db w V).
      destruct (firstFailure (createSchemaSQL db) db (conn w)) as [e|]; cbn.
      * destruct (classifyCreate_cases e) as [-> | ->].
        -- exists AlreadyExists. split; [reflexivity | discriminate].
        -- exists (Wrapped e). split; [reflexivity|].
           intros e' [= <-]. split; reflexivity.
      * exists Succeeded. split; [reflexivity | discriminate].
    + rewrite (CreateDatabase_invalid db w B).
      exists InvalidName. split; [reflexivity | discriminate].
  - destruct (guard_dec db) as [V | B].
    + rewrite (CreateDatabaseIfNotExists_result db w V).
      destruct (firstFailure (createSchemaIfNotExistsSQL db) db (conn w))
        as [e|]; cbn.
      * unfold swallow. destruct (errors.Is_ErrAlreadyExist e).
        -- exists Succeeded. split; [reflexivity | discriminate].
        -- destruct (classifyCreate_cases e) as [-> | ->].
           ++ exists AlreadyExists. split; [reflexivity | discriminate].
           ++ exists (Wrapped e). split; [reflexivity|].
              intros e' [= <-]. split; reflexivity.
      * exists Succeeded. split; [reflexivity | discriminate].
    + rewrite (CreateDatabaseIfNotExists_invalid db w B).
      exists InvalidName. split; [reflexivity | discriminate].
Qed.

(** What [CreateDatabaseIfNotExists] does with a PostgreSQL error that says
    the schema or an object of it exists already: the [switch] turns it into
    [ErrAlreadyExist], which the call returns. *)
Lemma CreateDatabaseIfNotExists_duplicate
  (db : string) (w : World Conn) (e : error) (code msg : string) :
  validName db ->
  firstFailure (createSchemaIfNotExistsSQL db) db (conn w) = Some e ->
  errors.As e = Some (code, msg) ->
  code = "42P06" \/ code = "23505" \/ code = "42710" ->
  fst (CreateDatabaseIfNotExists db w) = Some ErrAlreadyExist.
Proof.
  intros V HF HAs D.
  rewrite (CreateDatabaseIfNotExists_result db w V), HF. unfold swallow.
  rewrite (As_excludes_Is e (code, msg) HAs).
  rewrite (classifyCreate_duplicate e code msg HAs D). reflexivity.
Qed.

End Create.

(** ** Dropping a database *)

Section Drop.

Context {Conn : Type} `{Q : Querier Conn} `{T : SettingsTable Conn}.

Lemma DropDatabase_result (db : string) (w : World Conn) :
  fst (DropDatabase db w)
  = match fst (Exec (dropSchemaSQL db) (conn w)) with
    | None => None
    | Some (PgError code msg) =>
        if code =? "3F000" then Some ErrSchemaNotExist
        else Some (lazyerrors.Error (PgError code msg))
    | Some e => Some (lazyerrors.Error e)
    end.
Proof.
  unfold DropDatabase, bind, exec, ret. fold (dropSchemaSQL db).
  destruct (Exec (dropSchemaSQL db) (conn w)) as [[e|] c]; cbn;
    [|reflexivity].
  destruct e; cbn; try reflexivity.
  unfold pgerrcode.InvalidSchemaName. destruct (Code =? "3F000"); reflexivity.
Qed.

(** C5: for every database name, [DropDatabase] returns [nil] exactly when
    the [DROP SCHEMA] statement succeeds; when the statement fails it returns
    [ErrSchemaNotExist] (reported as NamespaceNotFound) exactly when the error
    is a PostgreSQL error with SQLSTATE 3F000, and the error wrapped by
    [lazyerrors.Error] for every other failure. *)
Theorem DropDatabase_error_mapping (db : string) (w : World Conn) :
  (fst (Exec (dropSchemaSQL db) (conn w)) = None <->
   fst (DropDatabase db w) = None)
  /\ (forall e : error,
        fst (Exec (dropSchemaSQL db) (conn w)) = Some e ->
        (fst (DropDatabase db w) = Some ErrSchemaNotExist <->
         exists msg : string, e = PgError "3F000" msg)
        /\ ((forall msg : string, e <> PgError "3F000" msg) ->
            fst (DropDatabase db w) = Some (lazyerrors.Error e)))
  /\ reportedAs ErrSchemaNotExist = Some NamespaceNotFound.
Proof.
  rewrite (DropDatabase_result db w).
  destruct (fst (Exec (dropSchemaSQL db) (conn w))) as [e0|].
  - split; [|split; [|reflexivity]].
    + split; [discriminate|].
      destruct e0; try discriminate.
      destruct (Code =? "3F000"); discriminate.
    + intros e [= <-].
      destruct e0 as [ | | | code msg | m | m c | c ];
        try (split; [split; [discriminate | intros [msg' H]; discriminate H]
                    | reflexivity]).
      destruct (code =? "3F000") eqn:E.
      * apply String.eqb_eq in E. subst code. split.
        -- split; [intros _; exists msg; reflexivity | reflexivity].
        -- intros N. contradiction (N msg). reflexivity.
      * apply String.eqb_neq in E. split.
        -- split; [discriminate|]. intros [msg' [= H _]]. contradiction.
        -- reflexivity.
  - split; [|split; [|reflexivity]].
    + split; reflexivity.
    + discriminate.
Qed.

End Drop.

(** ** The functions on concrete sessions *)

(** C1 fails on the code.  For the valid name [test]: when the statement
    [CREATE SCHEMA IF NOT EXISTS] loses a race and PostgreSQL answers 23505 or
    42P06, and when the settings-table creation answers 42710,
    [CreateDatabaseIfNotExists] returns [ErrAlreadyExist] and not [nil]. *)
Theorem CreateDatabaseIfNotExists_returns_ErrAlreadyExist :
  validName "test"
  /\ fst (CreateDatabaseIfNotExists "test"
            (Scripted.start
               [Scripted.Done (Some (PgError "23505" "duplicate key value"))]))
     = Some ErrAlreadyExist
  /\ fst (CreateDatabaseIfNotExists "test"
            (Scripted.start
               [Scripted.Done (Some (PgError "42P06" "schema already exists"))]))
     = Some ErrAlreadyExist
  /\ fst (CreateDatabaseIfNotExists "test"
            (Scripted.start
               [Scripted.Done None;
                Scripted.Done
                  (Some (LazyError (PgError "42710" "object already exists")))]))
     = Some ErrAlreadyExist.
Proof.
  split; [split; reflexivity|].
  repeat split; reflexivity.
Qed.

(** C10 fails on the code: [createSettingsTable] answering [ErrAlreadyExist],
    which is not a PostgreSQL error, makes [CreateDatabaseIfNotExists] return
    [nil], not the error wrapped. *)
Lemma CreateDatabaseIfNotExists_drops_non_pg_error :
  validName "test"
  /\ firstFailure (createSchemaIfNotExistsSQL "test") "test"
       [Scripted.Done None; Scripted.Done (Some ErrAlreadyExist)]
     = Some ErrAlreadyExist
  /\ errors.As ErrAlreadyExist = None
  /\ fst (CreateDatabaseIfNotExists "test"
            (Scripted.start
               [Scripted.Done None; Scripted.Done (Some ErrAlreadyExist)]))
     = None
  /\ fst (CreateDatabaseIfNotExists "test"
            (Scripted.start
               [Scripted.Done None; Scripted.Done (Some ErrAlreadyExist)]))
     <> Some (lazyerrors.Error ErrAlreadyExist).
Proof.
  split; [split; reflexivity|].
  repeat split; try reflexivity.
  cbn. discriminate.
Qed.

(** C4 on three sessions: one that accepts both steps, one that answers the
    schema statement with 42P06, one that answers it with 42501. *)
Lemma CreateDatabase_error_mapping_witness :
  validName "test"
  /\ fst (CreateDatabase "test" (Scripted.start [])) = None
  /\ fst (CreateDatabase "test"
            (Scripted.start [Scripted.Done (Some (PgError "42P06" "exists"))]))
     = Some ErrAlreadyExist
  /\ fst (CreateDatabase "test"
            (Scripted.start [Scripted.Done (Some (PgError "42501" "denied"))]))
     = Some (lazyerrors.Error (PgError "42501" "denied")).
Proof.
  assert (V : validName "test") by (split; reflexivity).
  split; [exact V|]. split; [|split].
  - apply (CreateDatabase_error_mapping "test" (Scripted.start []) V).
    reflexivity.
  - destruct (CreateDatabase_error_mapping "test"
                (Scripted.start
                   [Scripted.Done (Some (PgError "42P06" "exists"))]) V)
      as [_ H].
    apply (H (PgError "42P06" "exists") "42P06" "exists");
      [reflexivity | reflexivity | left; reflexivity].
  - destruct (CreateDatabase_error_mapping "test"
                (Scripted.start
                   [Scripted.Done (Some (PgError "42501" "denied"))]) V)
      as [_ H].
    apply (H (PgError "42501" "denied") "42501" "denied");
      [reflexivity | reflexivity | discriminate ..].
Defined.

(** C9 on a session that accepts the schema statement and on one that
    refuses it, for both functions. *)
Lemma settings_table_iff_schema_created_witness :
  validName "test"
  /\ issued (Scripted.start [])
       (snd (CreateDatabase "test" (Scripted.start [])))
       [SQL (createSchemaSQL "test"); CallCreateSettingsTable "test"]
  /\ issued (Scripted.start [Scripted.Done (Some (Opaque "context canceled"))])
       (snd (CreateDatabase "test"
               (Scripted.start
                  [Scripted.Done (Some (Opaque "context canceled"))])))
       [SQL (createSchemaSQL "test")]
  /\ issued (Scripted.start [])
       (snd (CreateDatabaseIfNotExists "test" (Scripted.start [])))
       [SQL (createSchemaIfNotExistsSQL "test"); CallCreateSettingsTable "test"]
  /\ issued (Scripted.start [Scripted.Done (Some (Opaque "context canceled"))])
       (snd (CreateDatabaseIfNotExists "test"
               (Scripted.start
                  [Scripted.Done (Some (Opaque "context canceled"))])))
       [SQL (createSchemaIfNotExistsSQL "test")]
  /\ exists evs : list event,
      issued (Scripted.start [])
        (snd (CreateDatabase "test" (Scripted.start []))) evs
      /\ In (CallCreateSettingsTable "test") evs.
Proof.
  assert (V : validName "test") by (split; reflexivity).
  destruct (settings_table_iff_schema_created "test" (Scripted.start []))
    as [Hok [Hiff _]].
  destruct (Hok V) as [H1 [_ [H3 _]]].
  destruct (settings_table_iff_schema_created "test"
              (Scripted.start
                 [Scripted.Done (Some (Opaque "context canceled"))]))
    as [Hko _].
  destruct (Hko V) as [_ [H2 [_ H4]]].
  split; [exact V|]. split; [|split; [|split; [|split]]].
  - apply H1. reflexivity.
  - apply (H2 (Opaque "context canceled")). reflexivity.
  - apply H3. reflexivity.
  - apply (H4 (Opaque "context canceled")). reflexivity.
  - apply Hiff. split; [exact V | reflexivity].
Defined.

(** C10 as amended, on a cancelled context and on a settings table that is
    there already. *)
Lemma create_results_classified_witness :
  validName "test"
  /\ errors.As (Opaque "context canceled") = None
  /\ fst (CreateDatabase "test"
            (Scripted.start [Scripted.Done (Some (Opaque "context canceled"))]))
     = Some (lazyerrors.Error (Opaque "context canceled"))
  /\ fst (CreateDatabaseIfNotExists "test"
            (Scripted.start
               [Scripted.Done None; Scripted.Done (Some ErrAlreadyExist)]))
     = None.
Proof.
  assert (V : validName "test") by (split; reflexivity).
  split; [exact V|]. split; [reflexivity|]. split.
  - destruct (create_results_classified "test"
                (Scripted.start
                   [Scripted.Done (Some (Opaque "context canceled"))]))
      as [H _].
    apply (H V (Opaque "context canceled")); reflexivity.
  - destruct (create_results_classified "test"
                (Scripted.start
                   [Scripted.Done None; Scripted.Done (Some ErrAlreadyExist)]))
      as [H _].
    apply (H V ErrAlreadyExist); reflexivity.
Defined.

(** C5 on a session that answers 3F000, on one whose connection broke and on
    one that drops the schema. *)
Lemma DropDatabase_error_mapping_witness :
  fst (DropDatabase "test"
         (Scripted.start [Scripted.Done (Some (PgError "3F000" "no schema"))]))
  = Some ErrSchemaNotExist
  /\ fst (DropDatabase "test"
            (Scripted.start [Scripted.Done (Some (Opaque "broken pipe"))]))
     = Some (lazyerrors.Error (Opaque "broken pipe"))
  /\ fst (DropDatabase "test" (Scripted.start [])) = None.
Proof.
  split; [|split].
  - destruct (DropDatabase_error_mapping "test"
                (Scripted.start
                   [Scripted.Done (Some (PgError "3F000" "no schema"))]))
      as [_ [H _]].
    apply (H (PgError "3F000" "no schema")); [reflexivity|].
    exists "no schema". reflexivity.
  - destruct (DropDatabase_error_mapping "test"
                (Scripted.start [Scripted.Done (Some (Opaque "broken pipe"))]))
      as [_ [H _]].
    apply (H (Opaque "broken pipe")); [reflexivity | discriminate].
  - apply (DropDatabase_error_mapping "test" (Scripted.start [])).
    reflexivity.
Defined.

(** ** Listing the databases *)

Lemma scanRows_inl (rows : list (string + error)) (res out : list string) :
  scanRows rows res = inl out ->
  out = (res ++ filter listed (scanned rows))%list
  /\ rows = map inl (scanned rows).
Proof.
  revert res. induction rows as [|[name | err] rest IH]; cbn; intros res H.
  - injection H as <-. rewrite app_nil_r. split; reflexivity.
  - unfold listed at 1.
    destruct (strings.HasPrefix name "pg_" || (name =? "information_schema"));
      cbn; destruct (IH _ H) as [-> E]; rewrite <- E.
    + split; reflexivity.
    + rewrite <- app_assoc. split; reflexivity.
  - discriminate H.
Qed.

Lemma scanRows_names (names : list string) (res : list string) :
  scanRows (map inl names) res = inl (res ++ filter listed names)%list.
Proof.
  revert res. induction names as [|name rest IH]; cbn; intros res.
  - rewrite app_nil_r. reflexivity.
  - unfold listed at 1.
    destruct (strings.HasPrefix name "pg_" || (name =? "information_schema"));
      cbn; rewrite IH.
    + reflexivity.
    + rewrite <- app_assoc. reflexivity.
Qed.

Lemma listed_spec (name : string) :
  listed name = true <->
  strings.HasPrefix name "pg_" = false /\ name <> "information_schema".
Proof.
  unfold listed. rewrite negb_true_iff, orb_false_iff, String.eqb_neq.
  reflexivity.
Qed.


Section Listing.

Context {Conn : Type} `{Q : Querier Conn}.

Lemma Databases_run (w : World Conn) :
  Databases w =
    (match fst (Query Databases_sql (conn w)) with
     | inr err => inr (lazyerrors.Error err)
     | inl rows =>
         match scanRows (scans rows) [] with
         | inr err => inr err
         | inl res =>
             match Err rows with
             | Some err => inr (lazyerrors.Error err)
             | None => inl res
             end
         end
     end,
     record (SQL Databases_sql) (snd (Query Databases_sql (conn w))) w).
Proof.
  unfold Databases, bind, query, ret.
  destruct (Query Databases_sql (conn w)) as [[rows | err] c]; cbn;
    [|reflexivity].
  destruct (scanRows (scans rows) []); [|reflexivity].
  destruct (Err rows); reflexivity.
Qed.

(** C6: whatever schema names the backend reports, the list [Databases]
    returns is those names without the ones that begin with [pg_] and without
    [information_schema]: it holds no such name and every other reported
    name. *)
Theorem Databases_hides_system_schemas
  (w : World Conn) (names : list string) (c : Conn) :
  Query Databases_sql (conn w)
  = (inl {| scans := map inl names; Err := None |}, c) ->
  exists res : list string,
    fst (Databases w) = inl res
    /\ res = filter listed names
    /\ forall name : string,
        In name res <->
        In name names
        /\ strings.HasPrefix name "pg_" = false
        /\ name <> "information_schema".
Proof.
  intros HQ. exists (filter listed names).
  rewrite Databases_run, HQ. cbn. rewrite scanRows_names. cbn.
  split; [reflexivity|]. split; [reflexivity|].
  intros name. rewrite filter_In, listed_spec. reflexivity.
Qed.

Section Order.

Variable le : string -> string -> Prop.
Hypothesis le_trans : Transitive le.


End Order.

End Listing.

(** C6 on the schemas of a fresh PostgreSQL database with one FerretDB
    database in it. *)
Lemma Databases_hides_system_schemas_witness :
  Query Databases_sql
        (conn (Scripted.start
                 [Scripted.Result
                    {| scans := map inl ["information_schema"; "pg_catalog";
                                         "pg_toast"; "public"; "test"];
                       Err := None |}]))
  = (inl {| scans := map inl ["information_schema"; "pg_catalog";
                              "pg_toast"; "public"; "test"];
            Err := None |}, [])
  /\ exists res : list string,
      fst (Databases
             (Scripted.start
                [Scripted.Result
                   {| scans := map inl ["information_schema"; "pg_catalog";
                                        "pg_toast"; "public"; "test"];
                      Err := None |}]))
      = inl res
      /\ res = ["public"; "test"].
Proof.
  assert (HQ : Query Databases_sql
                 (conn (Scripted.start
                          [Scripted.Result
                             {| scans := map inl ["information_schema";
                                                  "pg_catalog"; "pg_toast";
                                                  "public"; "test"];
                                Err := None |}]))
               = (inl {| scans := map inl ["information_schema"; "pg_catalog";
                                           "pg_toast"; "public"; "test"];
                         Err := None |}, [])) by reflexivity.
  split; [exact HQ|].
  destruct (Databases_hides_system_schemas _ _ _ HQ) as [res [H1 [H2 _]]].
  exists res. split; [exact H1 | exact H2].
Defined.



(** ** The name inside the statements *)

Lemma rest_class_plain (c : ascii) :
  validateDatabaseNameRe.rest_class c = true ->
  Ascii.eqb c zero = false /\ Ascii.eqb c pgx.dquote = false.
Proof.
  intros H. split.
  - destruct (Ascii.eqb c zero) eqn:E; [|reflexivity].
    apply Ascii.eqb_eq in E. subst c. discriminate H.
  - destruct (Ascii.eqb c pgx.dquote) eqn:E; [|reflexivity].
    apply Ascii.eqb_eq in E. subst c. discriminate H.
Qed.

Lemma first_class_rest_class (c : ascii) :
  validateDatabaseNameRe.first_class c = true ->
  validateDatabaseNameRe.rest_class c = true.
Proof.
  unfold validateDatabaseNameRe.first_class, validateDatabaseNameRe.rest_class.
  destruct (validateDatabaseNameRe.lower c),
    (validateDatabaseNameRe.digit c),
    (validateDatabaseNameRe.underscore c),
    (validateDatabaseNameRe.hyphen c); cbn; congruence.
Qed.

Lemma MatchString_all_rest (db : string) :
  validateDatabaseNameRe.MatchString db = true ->
  validateDatabaseNameRe.all_rest db = true.
Proof.
  destruct db as [|c r]; cbn; [discriminate|].
  rewrite !andb_true_iff. intros [[Hc Hr] _].
  split; [apply first_class_rest_class, Hc | exact Hr].
Qed.

Lemma all_rest_chars (s : string) :
  validateDatabaseNameRe.all_rest s = true ->
  forall c : ascii,
    In c (list_ascii_of_string s) ->
    validateDatabaseNameRe.rest_class c = true.
Proof.
  induction s as [|a r IH]; cbn; [intros _ c []|].
  rewrite andb_true_iff. intros [Ha Hr] c [<- | Hc]; auto.
Qed.

Lemma ReplaceAll_absent (s : string) (old : ascii) (new : string) :
  (forall c : ascii, In c (list_ascii_of_string s) -> Ascii.eqb c old = false) ->
  strings.ReplaceAll s old new = s.
Proof.
  induction s as [|a r IH]; cbn; intros H; [reflexivity|].
  rewrite (H a (or_introl eq_refl)), IH; auto.
Qed.

Lemma string_app_assoc (a b c : string) : (a ++ b) ++ c = a ++ b ++ c.
Proof.
  induction a as [|x a IH]; cbn; [reflexivity|]. rewrite IH. reflexivity.
Qed.

Lemma Sanitize_plain (db : string) :
  validateDatabaseNameRe.all_rest db = true ->
  pgx.Sanitize [db] = pgx.quoteStr ++ db ++ pgx.quoteStr.
Proof.
  intros H. unfold pgx.Sanitize, strings.Join, pgx.sanitizePart. cbn.
  rewrite (ReplaceAll_absent db zero).
  - rewrite (ReplaceAll_absent db pgx.dquote); [reflexivity|].
    intros c Hc. apply rest_class_plain, (all_rest_chars db H c Hc).
  - intros c Hc. apply rest_class_plain, (all_rest_chars db H c Hc).
Qed.

Section Statements.

Context {Conn : Type} `{Q : Querier Conn} `{T : SettingsTable Conn}.

(** C8: for every database name accepted by validation, the name has no
    double quote and no NUL byte, so its sanitized form is the name itself
    between double quotes, and the statements of [CreateDatabase],
    [CreateDatabaseIfNotExists] and [DropDatabase] carry exactly that one
    quoted identifier. *)
Theorem valid_name_embedded_as_quoted_identifier (db : string) (w : World Conn) :
  validName db ->
  pgx.Sanitize [db] = pgx.quoteStr ++ db ++ pgx.quoteStr
  /\ (forall c : ascii,
        In c (list_ascii_of_string db) -> c <> pgx.dquote /\ c <> zero)
  /\ (exists rest : list event,
         issued w (snd (CreateDatabase db w))
           (SQL ("CREATE SCHEMA " ++ pgx.quoteStr ++ db ++ pgx.quoteStr) :: rest))
  /\ (exists rest : list event,
         issued w (snd (CreateDatabaseIfNotExists db w))
           (SQL ("CREATE SCHEMA IF NOT EXISTS "
                 ++ pgx.quoteStr ++ db ++ pgx.quoteStr) :: rest))
  /\ issued w (snd (DropDatabase db w))
       [SQL ("DROP SCHEMA " ++ pgx.quoteStr ++ db ++ pgx.quoteStr ++ " CASCADE")].
Proof.
  intros V.
  assert (HA : validateDatabaseNameRe.all_rest db = true)
    by (apply MatchString_all_rest, V).
  pose proof (Sanitize_plain db HA) as HS.
  split; [exact HS|]. split; [|split; [|split]].
  - intros c Hc.
    destruct (rest_class_plain c (all_rest_chars db HA c Hc)) as [Hz Hq].
    split; intros ->.
    + rewrite Ascii.eqb_refl in Hq. discriminate Hq.
    + rewrite Ascii.eqb_refl in Hz. discriminate Hz.
  - pose proof (CreateDatabase_events db w) as HE.
    unfold createEvents in HE. rewrite (guard_valid db V) in HE.
    unfold createSchemaSQL in HE. rewrite HS in HE.
    destruct (fst (Exec _ (conn w))); eexists; exact HE.
  - pose proof (CreateDatabaseIfNotExists_events db w) as HE.
    unfold createEvents in HE. rewrite (guard_valid db V) in HE.
    unfold createSchemaIfNotExistsSQL in HE. rewrite HS in HE.
    destruct (fst (Exec _ (conn w))); eexists; exact HE.
  - rewrite DropDatabase_trace. unfold issued, afterSchema, record, dropSchemaSQL.
    cbn [trace]. rewrite HS, !string_app_assoc. reflexivity.
Qed.

End Statements.

(** C8 at the name [test]. *)
Lemma valid_name_embedded_as_quoted_identifier_witness :
  validName "test"
  /\ pgx.Sanitize ["test"] = pgx.quoteStr ++ "test" ++ pgx.quoteStr
  /\ issued (Scripted.start []) (snd (DropDatabase "test" (Scripted.start [])))
       [SQL ("DROP SCHEMA " ++ pgx.quoteStr ++ "test" ++ pgx.quoteStr
             ++ " CASCADE")].
Proof.
  assert (V : validName "test") by (split; reflexivity).
  split; [exact V|].
  destruct (valid_name_embedded_as_quoted_identifier "test" (Scripted.start []) V)
    as [H1 [_ [_ [_ H5]]]].
  split; [exact H1 | exact H5].
Defined.

(** ** More on [Databases]: when it fails, and what it keeps *)

Lemma scanRows_first_error
  (names : list string) (e : error) (rest : list (string + error))
  (res : list string) :
  scanRows (map inl names ++ inr e :: rest)%list res
  = inr (lazyerrors.Error e).
Proof.
  revert res. induction names as [|name names IH]; cbn; intros res.
  - reflexivity.
  - destruct (strings.HasPrefix name "pg_" || (name =? "information_schema"));
      apply IH.
Qed.

Lemma Is_excludes_As (e : error) :
  errors.Is_ErrAlreadyExist e = true -> errors.As e = None.
Proof.
  induction e; cbn; intros H; try discriminate; auto.
Qed.

Section ListingMore.

Context {Conn : Type} `{Q : Querier Conn}.

Lemma Databases_result (w : World Conn) :
  fst (Databases w) =
    match fst (Query Databases_sql (conn w)) with
    | inr err => inr (lazyerrors.Error err)
    | inl rows =>
        match scanRows (scans rows) [] with
        | inr err => inr err
        | inl res =>
            match Err rows with
            | Some err => inr (lazyerrors.Error err)
            | None => inl res
            end
        end
    end.
Proof. rewrite Databases_run. reflexivity. Qed.

Lemma Databases_inl_inv (w : World Conn) (res : list string) :
  fst (Databases w) = inl res ->
  exists rows : Rows,
    fst (Query Databases_sql (conn w)) = inl rows
    /\ scans rows = map inl (scanned (scans rows))
    /\ Err rows = None
    /\ res = filter listed (scanned (scans rows)).
Proof.
  rewrite Databases_result.
  destruct (fst (Query Databases_sql (conn w))) as [rows | e];
    [|discriminate].
  destruct (scanRows (scans rows) []) as [out | e] eqn:E; [|discriminate].
  destruct (Err rows) as [e|] eqn:HE; [discriminate|].
  intros [= <-]. apply scanRows_inl in E. destruct E as [-> HS].
  exists rows. repeat split; assumption.
Qed.

(** X1: [Databases] returns a list exactly when the query succeeds, every
    [Scan] succeeds and [rows.Err()] is [nil]; the list is then the scanned
    names without those beginning with [pg_] and without
    [information_schema]. *)
Theorem Databases_success_iff (w : World Conn) (res : list string) :
  fst (Databases w) = inl res <->
  exists (rows : Rows) (names : list string),
    fst (Query Databases_sql (conn w)) = inl rows
    /\ scans rows = map inl names
    /\ Err rows = None
    /\ res = filter listed names.
Proof.
  split.
  - intros H. destruct (Databases_inl_inv w res H) as [rows [HQ [HS [HE ->]]]].
    exists rows, (scanned (scans rows)). repeat split; assumption.
  - intros [rows [names [HQ [HS [HE ->]]]]].
    rewrite Databases_result, HQ, HS, scanRows_names, HE. reflexivity.
Qed.

(** X2: the error [Databases] returns is the first failure, wrapped by
    [lazyerrors.Error]: the error of the query; or else the error of the first
    [Scan] that fails, whatever rows follow and whatever [rows.Err()] says; or
    else the error of [rows.Err()].  In each case the one statement of the
    function has been sent and nothing else. *)
Theorem Databases_returns_first_failure (w : World Conn) :
  (forall e : error,
      fst (Query Databases_sql (conn w)) = inr e ->
      fst (Databases w) = inr (lazyerrors.Error e))
  /\ (forall (rows : Rows) (names : list string) (e : error)
             (rest : list (string + error)),
         fst (Query Databases_sql (conn w)) = inl rows ->
         scans rows = (map inl names ++ inr e :: rest)%list ->
         fst (Databases w) = inr (lazyerrors.Error e))
  /\ (forall (rows : Rows) (names : list string) (e : error),
         fst (Query Databases_sql (conn w)) = inl rows ->
         scans rows = map inl names ->
         Err rows = Some e ->
         fst (Databases w) = inr (lazyerrors.Error e))
  /\ issued w (snd (Databases w)) [SQL Databases_sql].
Proof.
  rewrite Databases_result. repeat split.
  - intros e ->. reflexivity.
  - intros rows names e rest -> ->. rewrite scanRows_first_error. reflexivity.
  - intros rows names e -> -> ->. rewrite scanRows_names. reflexivity.
  - rewrite Databases_run. reflexivity.
Qed.

(** X3: [Databases] adds no duplicates: when the names the backend delivers
    are pairwise distinct, so are the names of the returned list. *)
Theorem Databases_keeps_names_distinct
  (w : World Conn) (rows : Rows) (res : list string) :
  fst (Query Databases_sql (conn w)) = inl rows ->
  NoDup (scanned (scans rows)) ->
  fst (Databases w) = inl res ->
  NoDup res.
Proof.
  intros HQ HN HR.
  destruct (Databases_inl_inv w res HR) as [rows' [HQ' [_ [_ ->]]]].
  rewrite HQ in HQ'. injection HQ' as <-.
  apply NoDup_filter, HN.
Qed.

End ListingMore.

(** ** More on the create functions and on [DropDatabase] *)

Lemma scanRows_error_wrapped
  (rows : list (string + error)) (res : list string) (r : error) :
  scanRows rows res = inr r -> exists e : error, r = lazyerrors.Error e.
Proof.
  revert res. induction rows as [|[name | err] rest IH]; cbn; intros res H.
  - discriminate H.
  - destruct (strings.HasPrefix name "pg_" || (name =? "information_schema"));
      apply (IH _ H).
  - injection H as <-. exists err. reflexivity.
Qed.

Lemma swallow_None (e : error) :
  swallow e = None <-> errors.Is_ErrAlreadyExist e = true.
Proof.
  unfold swallow. destruct (errors.Is_ErrAlreadyExist e); split;
    try reflexivity; discriminate.
Qed.

Lemma classifyCreate_not_invalid (e : error) :
  classifyCreate e <> ErrInvalidDatabaseName.
Proof.
  destruct (classifyCreate_cases e) as [-> | ->]; discriminate.
Qed.

Section CreateMore.

Context {Conn : Type} `{Q : Querier Conn} `{T : SettingsTable Conn}.

(** X4: [CreateDatabase] returns [nil] exactly when the name passes the guard
    and both the schema statement and the settings-table creation succeed. *)
Theorem CreateDatabase_nil_iff (db : string) (w : World Conn) :
  fst (CreateDatabase db w) = None <->
  validName db /\ firstFailure (createSchemaSQL db) db (conn w) = None.
Proof.
  split.
  - destruct (guard_dec db) as [V | B].
    + rewrite (CreateDatabase_result db w V).
      destruct (firstFailure (createSchemaSQL db) db (conn w)); cbn;
        [discriminate | auto].
    + rewrite (CreateDatabase_invalid db w B). discriminate.
  - intros [V HF]. rewrite (CreateDatabase_result db w V), HF. reflexivity.
Qed.

(** X5: [CreateDatabaseIfNotExists] returns [nil] exactly when the name passes
    the guard and either both steps succeed or the step that fails reports an
    error that is, or wraps, [ErrAlreadyExist]. *)
Theorem CreateDatabaseIfNotExists_nil_iff (db : string) (w : World Conn) :
  fst (CreateDatabaseIfNotExists db w) = None <->
  validName db
  /\ (firstFailure (createSchemaIfNotExistsSQL db) db (conn w) = None
      \/ exists e : error,
          firstFailure (createSchemaIfNotExistsSQL db) db (conn w) = Some e
          /\ errors.Is_ErrAlreadyExist e = true).
Proof.
  split.
  - destruct (guard_dec db) as [V | B].
    + rewrite (CreateDatabaseIfNotExists_result db w V).
      destruct (firstFailure (createSchemaIfNotExistsSQL db) db (conn w))
        as [e|]; [|auto].
      intros H. apply swallow_None in H. split; [exact V|].
      right. exists e. split; [reflexivity | exact H].
    + rewrite (CreateDatabaseIfNotExists_invalid db w B). discriminate.
  - intros [V [HF | [e [HF HI]]]];
      rewrite (CreateDatabaseIfNotExists_result db w V), HF;
      [reflexivity | apply swallow_None, HI].
Qed.

(** X6: when a step of [CreateDatabase] fails, [errors.Is] of the returned
    error and [ErrAlreadyExist] holds exactly when the failure is, or wraps,
    [ErrAlreadyExist], or is a PostgreSQL error with SQLSTATE 42P06, 23505 or
    42710: the doc comment's "possibly wrapped" [ErrAlreadyExist]. *)
Theorem CreateDatabase_Is_ErrAlreadyExist
  (db : string) (w : World Conn) (e : error) :
  validName db ->
  firstFailure (createSchemaSQL db) db (conn w) = Some e ->
  exists r : error,
    fst (CreateDatabase db w) = Some r
    /\ (errors.Is_ErrAlreadyExist r = true <->
        errors.Is_ErrAlreadyExist e = true
        \/ exists code msg : string,
            errors.As e = Some (code, msg)
            /\ (code = "42P06" \/ code = "23505" \/ code = "42710")).
Proof.
  intros V HF. exists (classifyCreate e).
  rewrite (CreateDatabase_result db w V), HF. split; [reflexivity|].
  destruct (errors.As e) as [[code msg]|] eqn:HAs.
  - pose proof (As_excludes_Is e (code, msg) HAs) as HI.
    destruct (String.eqb_spec code "42P06") as [E1 | N1];
      [|destruct (String.eqb_spec code "23505") as [E2 | N2];
        [|destruct (String.eqb_spec code "42710") as [E3 | N3]]].
    + rewrite (classifyCreate_duplicate e code msg HAs (or_introl E1)).
      split; [|reflexivity]. intros _. right. exists code, msg. auto.
    + rewrite (classifyCreate_duplicate e code msg HAs
                 (or_intror (or_introl E2))).
      split; [|reflexivity]. intros _. right. exists code, msg. auto.
    + rewrite (classifyCreate_duplicate e code msg HAs
                 (or_intror (or_intror E3))).
      split; [|reflexivity]. intros _. right. exists code, msg. auto.
    + rewrite (classifyCreate_other e code msg HAs N1 N2 N3). cbn.
      rewrite HI. split; [discriminate|].
      intros [H | [code' [msg' [[= <- _] [H | [H | H]]]]]];
        [discriminate H | contradiction ..].
  - rewrite (classifyCreate_not_pg e HAs). cbn. split; [auto|].
    intros [H | [code [msg [H _]]]]; [exact H | discriminate H].
Qed.

(** X7: [DropDatabase] does not unwrap.  An error of the statement that has
    an [Unwrap], even one that wraps a PostgreSQL error with SQLSTATE 3F000,
    is returned wrapped and never turned into [ErrSchemaNotExist]. *)
Theorem DropDatabase_does_not_unwrap
  (db : string) (w : World Conn) (e inner : error) :
  fst (Exec (dropSchemaSQL db) (conn w)) = Some e ->
  errors.Unwrap e = Some inner ->
  fst (DropDatabase db w) = Some (lazyerrors.Error e).
Proof.
  intros HE HU. rewrite (DropDatabase_result db w), HE.
  destruct e; try discriminate HU; reflexivity.
Qed.

(** X8: no error of the backend reaches the caller as it is: an error any of
    the four functions returns is one of the three sentinel errors of the
    package or a [lazyerrors.Error] wrapper. *)
Theorem returned_errors_are_sentinels_or_wrapped
  (db : string) (w : World Conn) (r : error) :
  fst (CreateDatabase db w) = Some r
  \/ fst (CreateDatabaseIfNotExists db w) = Some r
  \/ fst (DropDatabase db w) = Some r
  \/ fst (Databases w) = inr r ->
  r = ErrInvalidDatabaseName \/ r = ErrAlreadyExist \/ r = ErrSchemaNotExist
  \/ exists e : error, r = lazyerrors.Error e.
Proof.
  intros [H | [H | [H | H]]].
  - destruct (guard_dec db) as [V | B].
    + rewrite (CreateDatabase_result db w V) in H.
      destruct (firstFailure (createSchemaSQL db) db (conn w)) as [e|];
        [|discriminate H].
      injection H as <-.
      destruct (classifyCreate_cases e) as [-> | ->]; eauto.
    + rewrite (CreateDatabase_invalid db w B) in H. injection H as <-. auto.
  - destruct (guard_dec db) as [V | B].
    + rewrite (CreateDatabaseIfNotExists_result db w V) in H.
      destruct (firstFailure (createSchemaIfNotExistsSQL db) db (conn w))
        as [e|]; [|discriminate H].
      unfold swallow in H.
      destruct (errors.Is_ErrAlreadyExist e); [discriminate H|].
      injection H as <-.
      destruct (classifyCreate_cases e) as [-> | ->]; eauto.
    + rewrite (CreateDatabaseIfNotExists_invalid db w B) in H.
      injection H as <-. auto.
  - rewrite (DropDatabase_result db w) in H.
    destruct (fst (Exec (dropSchemaSQL db) (conn w))) as [e|];
      [|discriminate H].
    destruct e; try (injection H as <-; eauto).
    destruct (Code =? "3F000"); injection H as <-; eauto.
  - rewrite Databases_result in H.
    destruct (fst (Query Databases_sql (conn w))) as [rows | e].
    + destruct (scanRows (scans rows) []) as [out | e] eqn:E.
      * destruct (Err rows); [|discriminate H]. injection H as <-. eauto.
      * injection H as <-. do 3 right. apply (scanRows_error_wrapped _ _ _ E).
    + injection H as <-. eauto.
Qed.

End CreateMore.

Section Compose.

Context {Conn : Type} `{Q : Querier Conn} `{T : SettingsTable Conn}.

(** X9: when the schema statement succeeds and the settings-table creation
    fails, [CreateDatabase] and [CreateDatabaseIfNotExists] send nothing
    after the failing call: no statement undoes the schema, and the session
    is the one [createSettingsTable] left.  [CreateDatabase] then returns an
    error. *)
Theorem settings_failure_leaves_schema
  (db : string) (w : World Conn) :
  validName db ->
  (forall (c : Conn) (e : error),
      Exec (createSchemaSQL db) (conn w) = (None, c) ->
      fst (createSettingsTable_run db c) = Some e ->
      fst (CreateDatabase db w) <> None
      /\ issued w (snd (CreateDatabase db w))
           [SQL (createSchemaSQL db); CallCreateSettingsTable db]
      /\ conn (snd (CreateDatabase db w))
         = snd (createSettingsTable_run db c))
  /\ (forall (c : Conn) (e : error),
         Exec (createSchemaIfNotExistsSQL db) (conn w) = (None, c) ->
         fst (createSettingsTable_run db c) = Some e ->
         issued w (snd (CreateDatabaseIfNotExists db w))
           [SQL (createSchemaIfNotExistsSQL db); CallCreateSettingsTable db]
         /\ conn (snd (CreateDatabaseIfNotExists db w))
            = snd (createSettingsTable_run db c)).
Proof.
  intros V. split; intros c e HX HS.
  - rewrite (CreateDatabase_valid db w V).
    unfold firstFailure, afterSettings, afterSchema, issued. rewrite HX. cbn.
    rewrite HS. cbn. rewrite <- app_assoc.
    repeat split; try reflexivity. discriminate.
  - rewrite (CreateDatabaseIfNotExists_valid db w V).
    unfold firstFailure, afterSettings, afterSchema, issued. rewrite HX. cbn.
    rewrite <- app_assoc. split; reflexivity.
Qed.

(** X10: the two create functions treat a failure alike unless it is, or
    wraps, [ErrAlreadyExist]: for such a failure [CreateDatabase] returns it
    wrapped and [CreateDatabaseIfNotExists] returns [nil]; for any other
    failure both return the same error. *)
Theorem create_functions_agree_on_failures
  (db : string) (w : World Conn) (e : error) :
  validName db ->
  firstFailure (createSchemaSQL db) db (conn w) = Some e ->
  firstFailure (createSchemaIfNotExistsSQL db) db (conn w) = Some e ->
  (errors.Is_ErrAlreadyExist e = false ->
   fst (CreateDatabaseIfNotExists db w) = fst (CreateDatabase db w))
  /\ (errors.Is_ErrAlreadyExist e = true ->
      fst (CreateDatabase db w) = Some (lazyerrors.Error e)
      /\ fst (CreateDatabaseIfNotExists db w) = None).
Proof.
  intros V H1 H2.
  rewrite (CreateDatabase_result db w V), H1.
  rewrite (CreateDatabaseIfNotExists_result db w V), H2.
  unfold swallow. split; intros HI; rewrite HI.
  - reflexivity.
  - cbn. rewrite (classifyCreate_not_pg e (Is_excludes_As e HI)).
    split; reflexivity.
Qed.

(** X11: the create functions accept names that [Databases] hides.  A name
    that passes the guard and begins with [pg_], or is [information_schema],
    is not rejected: the schema statement for it is sent; and no list
    [Databases] returns holds it. *)
Theorem hidden_names_can_be_created
  (db : string) (w w' : World Conn) :
  validName db ->
  strings.HasPrefix db "pg_" = true \/ db = "information_schema" ->
  fst (CreateDatabase db w) <> Some ErrInvalidDatabaseName
  /\ fst (CreateDatabaseIfNotExists db w) <> Some ErrInvalidDatabaseName
  /\ (exists rest : list event,
         issued w (snd (CreateDatabase db w))
           (SQL (createSchemaSQL db) :: rest))
  /\ (exists rest : list event,
         issued w (snd (CreateDatabaseIfNotExists db w))
           (SQL (createSchemaIfNotExistsSQL db) :: rest))
  /\ forall res : list string, fst (Databases w') = inl res -> ~ In db res.
Proof.
  intros V Hh. split; [|split; [|split; [|split]]].
  - rewrite (CreateDatabase_result db w V).
    destruct (firstFailure (createSchemaSQL db) db (conn w)) as [e|]; cbn;
      [|discriminate].
    intros [= H]. exact (classifyCreate_not_invalid e H).
  - rewrite (CreateDatabaseIfNotExists_result db w V).
    destruct (firstFailure (createSchemaIfNotExistsSQL db) db (conn w))
      as [e|]; [|discriminate].
    unfold swallow. destruct (errors.Is_ErrAlreadyExist e); [discriminate|].
    intros [= H]. exact (classifyCreate_not_invalid e H).
  - pose proof (CreateDatabase_events db w) as HE.
    unfold createEvents in HE. rewrite (guard_valid db V) in HE.
    destruct (fst (Exec _ (conn w))); eexists; exact HE.
  - pose proof (CreateDatabaseIfNotExists_events db w) as HE.
    unfold createEvents in HE. rewrite (guard_valid db V) in HE.
    destruct (fst (Exec _ (conn w))); eexists; exact HE.
  - intros res HR HIn.
    destruct (Databases_inl_inv w' res HR) as [rows [_ [_ [_ ->]]]].
    apply filter_In in HIn. destruct HIn as [_ HL].
    apply listed_spec in HL. destruct HL as [HP HN].
    destruct Hh as [Hh | Hh]; [congruence | contradiction].
Qed.

(** X12: [Databases] does not apply the guard of the create functions.  A
    schema the backend reports whose name the guard rejects, and that neither
    begins with [pg_] nor is [information_schema], is listed, although
    [CreateDatabase] and [CreateDatabaseIfNotExists] reject the name. *)
Theorem listed_names_need_not_be_valid
  (name : string) (names : list string) (w w' : World Conn) :
  validateDatabaseNameRe.MatchString name = false
  \/ strings.HasPrefix name reservedPrefix = true ->
  strings.HasPrefix name "pg_" = false ->
  name <> "information_schema" ->
  In name names ->
  fst (Query Databases_sql (conn w)) = inl {| scans := map inl names; Err := None |} ->
  (exists res : list string, fst (Databases w) = inl res /\ In name res)
  /\ fst (CreateDatabase name w') = Some ErrInvalidDatabaseName
  /\ fst (CreateDatabaseIfNotExists name w') = Some ErrInvalidDatabaseName.
Proof.
  intros B HP HN HIn HQ. split; [|split].
  - exists (filter listed names). split.
    + rewrite Databases_result, HQ. cbn. rewrite scanRows_names. reflexivity.
    + apply filter_In. split; [exact HIn|]. apply listed_spec. auto.
  - rewrite (CreateDatabase_invalid name w' B). reflexivity.
  - rewrite (CreateDatabaseIfNotExists_invalid name w' B). reflexivity.
Qed.

End Compose.

(** ** The added properties on concrete sessions *)

(** X1 on a session that delivers four schema names. *)
Lemma Databases_success_iff_witness :
  fst (Databases
         (Scripted.start
            [Scripted.Result
               {| scans := map inl ["information_schema"; "pg_catalog";
                                    "public"; "test"];
                  Err := None |}]))
  = inl ["public"; "test"].
Proof.
  apply (Databases_success_iff
           (Scripted.start
              [Scripted.Result
                 {| scans := map inl ["information_schema"; "pg_catalog";
                                      "public"; "test"];
                    Err := None |}])
           ["public"; "test"]).
  exists {| scans := map inl ["information_schema"; "pg_catalog";
                              "public"; "test"];
            Err := None |},
    ["information_schema"; "pg_catalog"; "public"; "test"].
  repeat split; reflexivity.
Defined.

(** X2 on a session whose second row fails to scan and whose [rows.Err()] is
    set as well: the scan error is the one returned. *)
Lemma Databases_returns_first_failure_witness :
  fst (Databases
         (Scripted.start
            [Scripted.Result
               {| scans := [inl "public"; inr (Opaque "scan"); inl "test"];
                  Err := Some (Opaque "closed") |}]))
  = inr (lazyerrors.Error (Opaque "scan")).
Proof.
  destruct (Databases_returns_first_failure
              (Scripted.start
                 [Scripted.Result
                    {| scans := [inl "public"; inr (Opaque "scan"); inl "test"];
                       Err := Some (Opaque "closed") |}]))
    as [_ [H _]].
  apply (H {| scans := [inl "public"; inr (Opaque "scan"); inl "test"];
              Err := Some (Opaque "closed") |}
           ["public"] (Opaque "scan") [inl "test"]); reflexivity.
Defined.

(** X3 on three distinct names. *)
Lemma Databases_keeps_names_distinct_witness :
  NoDup ["information_schema"; "public"; "test"]
  /\ NoDup ["public"; "test"].
Proof.
  assert (N : NoDup ["information_schema"; "public"; "test"]).
  { repeat constructor; cbn; intros H;
      repeat (destruct H as [H | H]; [discriminate H|]); exact H. }
  split; [exact N|].
  apply (Databases_keeps_names_distinct
           (Scripted.start
              [Scripted.Result
                 {| scans := map inl ["information_schema"; "public"; "test"];
                    Err := None |}])
           {| scans := map inl ["information_schema"; "public"; "test"];
              Err := None |}
           ["public"; "test"]).
  - reflexivity.
  - exact N.
  - reflexivity.
Defined.

(** X4 on a session that accepts both steps. *)
Lemma CreateDatabase_nil_iff_witness :
  fst (CreateDatabase "test" (Scripted.start [])) = None.
Proof.
  apply (CreateDatabase_nil_iff "test" (Scripted.start [])).
  split; [split; reflexivity | reflexivity].
Defined.

(** X5 on a session whose settings table is there already. *)
Lemma CreateDatabaseIfNotExists_nil_iff_witness :
  fst (CreateDatabaseIfNotExists "test"
         (Scripted.start
            [Scripted.Done None; Scripted.Done (Some ErrAlreadyExist)]))
  = None.
Proof.
  apply (CreateDatabaseIfNotExists_nil_iff "test"
           (Scripted.start
              [Scripted.Done None; Scripted.Done (Some ErrAlreadyExist)])).
  split; [split; reflexivity|].
  right. exists ErrAlreadyExist. split; reflexivity.
Defined.

(** X6 on the same session: [CreateDatabase] returns [ErrAlreadyExist]
    wrapped, which [errors.Is] still finds. *)
Lemma CreateDatabase_Is_ErrAlreadyExist_witness :
  validName "test"
  /\ exists r : error,
      fst (CreateDatabase "test"
             (Scripted.start
                [Scripted.Done None; Scripted.Done (Some ErrAlreadyExist)]))
      = Some r
      /\ errors.Is_ErrAlreadyExist r = true.
Proof.
  assert (V : validName "test") by (split; reflexivity).
  split; [exact V|].
  destruct (CreateDatabase_Is_ErrAlreadyExist "test"
              (Scripted.start
                 [Scripted.Done None; Scripted.Done (Some ErrAlreadyExist)])
              ErrAlreadyExist V)
    as [r [H1 H2]]; [reflexivity|].
  exists r. split; [exact H1|]. apply H2. left. reflexivity.
Defined.

(** X7 on a session that answers the drop with a wrapped 3F000. *)
Lemma DropDatabase_does_not_unwrap_witness :
  fst (DropDatabase "test"
         (Scripted.start
            [Scripted.Done
               (Some (Wrapper "exec" (PgError "3F000" "no schema")))]))
  = Some (lazyerrors.Error (Wrapper "exec" (PgError "3F000" "no schema"))).
Proof.
  apply (DropDatabase_does_not_unwrap "test"
           (Scripted.start
              [Scripted.Done
                 (Some (Wrapper "exec" (PgError "3F000" "no schema")))])
           (Wrapper "exec" (PgError "3F000" "no schema"))
           (PgError "3F000" "no schema")); reflexivity.
Defined.

(** X8 on a session whose connection broke during the drop. *)
Lemma returned_errors_are_sentinels_or_wrapped_witness :
  fst (DropDatabase "test"
         (Scripted.start [Scripted.Done (Some (PgError "57P01" "shutdown"))]))
  = Some (lazyerrors.Error (PgError "57P01" "shutdown"))
  /\ (lazyerrors.Error (PgError "57P01" "shutdown") = ErrInvalidDatabaseName
      \/ lazyerrors.Error (PgError "57P01" "shutdown") = ErrAlreadyExist
      \/ lazyerrors.Error (PgError "57P01" "shutdown") = ErrSchemaNotExist
      \/ exists e : error, lazyerrors.Error (PgError "57P01" "shutdown")
                           = lazyerrors.Error e).
Proof.
  split; [reflexivity|].
  apply (returned_errors_are_sentinels_or_wrapped "test"
           (Scripted.start
              [Scripted.Done (Some (PgError "57P01" "shutdown"))])).
  right. right. left. reflexivity.
Defined.

(** X9 on a session that creates the schema and then times out. *)
Lemma settings_failure_leaves_schema_witness :
  validName "test"
  /\ fst (CreateDatabase "test"
            (Scripted.start
               [Scripted.Done None; Scripted.Done (Some (Opaque "timeout"))]))
     <> None
  /\ issued
       (Scripted.start
          [Scripted.Done None; Scripted.Done (Some (Opaque "timeout"))])
       (snd (CreateDatabase "test"
               (Scripted.start
                  [Scripted.Done None; Scripted.Done (Some (Opaque "timeout"))])))
       [SQL (createSchemaSQL "test"); CallCreateSettingsTable "test"].
Proof.
  assert (V : validName "test") by (split; reflexivity).
  split; [exact V|].
  destruct (settings_failure_leaves_schema "test"
              (Scripted.start
                 [Scripted.Done None; Scripted.Done (Some (Opaque "timeout"))])
              V) as [H _].
  destruct (H [Scripted.Done (Some (Opaque "timeout"))] (Opaque "timeout"))
    as [H1 [H2 _]]; [reflexivity | reflexivity |].
  split; [exact H1 | exact H2].
Defined.

(** X10 on a session that refuses the schema statement. *)
Lemma create_functions_agree_on_failures_witness :
  validName "test"
  /\ fst (CreateDatabaseIfNotExists "test"
            (Scripted.start [Scripted.Done (Some (PgError "42501" "denied"))]))
     = fst (CreateDatabase "test"
              (Scripted.start [Scripted.Done (Some (PgError "42501" "denied"))])).
Proof.
  assert (V : validName "test") by (split; reflexivity).
  split; [exact V|].
  destruct (create_functions_agree_on_failures "test"
              (Scripted.start [Scripted.Done (Some (PgError "42501" "denied"))])
              (PgError "42501" "denied") V) as [H _];
    [reflexivity | reflexivity |].
  apply H. reflexivity.
Defined.

(** X11 at the name [pg_data]. *)
Lemma hidden_names_can_be_created_witness :
  validName "pg_data"
  /\ strings.HasPrefix "pg_data" "pg_" = true
  /\ fst (CreateDatabase "pg_data" (Scripted.start [])) = None
  /\ fst (CreateDatabase "pg_data" (Scripted.start []))
     <> Some ErrInvalidDatabaseName
  /\ forall res : list string,
      fst (Databases
             (Scripted.start
                [Scripted.Result
                   {| scans := map inl ["pg_data"; "public"]; Err := None |}]))
      = inl res ->
      ~ In "pg_data" res.
Proof.
  assert (V : validName "pg_data") by (split; reflexivity).
  split; [exact V|]. split; [reflexivity|]. split; [reflexivity|].
  destruct (hidden_names_can_be_created "pg_data" (Scripted.start [])
              (Scripted.start
                 [Scripted.Result
                    {| scans := map inl ["pg_data"; "public"]; Err := None |}])
              V (or_introl eq_refl)) as [H1 [_ [_ [_ H5]]]].
  split; [exact H1 | exact H5].
Defined.

(** X12 at the schema name [Public]. *)
Lemma listed_names_need_not_be_valid_witness :
  validateDatabaseNameRe.MatchString "Public" = false
  /\ (exists res : list string,
         fst (Databases
                (Scripted.start
                   [Scripted.Result
                      {| scans := map inl ["Public"; "test"]; Err := None |}]))
         = inl res
         /\ In "Public" res)
  /\ fst (CreateDatabase "Public" (Scripted.start []))
     = Some ErrInvalidDatabaseName.
Proof.
  split; [reflexivity|].
  destruct (listed_names_need_not_be_valid "Public" ["Public"; "test"]
              (Scripted.start
                 [Scripted.Result
                    {| scans := map inl ["Public"; "test"]; Err := None |}])
              (Scripted.start []))
    as [H1 [H2 _]].
  - left. reflexivity.
  - reflexivity.
  - discriminate.
  - left. reflexivity.
  - reflexivity.
  - split; [exact H1 | exact H2].
Defined.
